(** * sanarte-hydrogen: cart line controls and the product page loader

    A shallow embedding of [app/components/cart/CartLineItem.tsx] and of
    the product route ([loader], [loadCriticalData], [loadDeferredData]).

    - JavaScript numbers are restricted to what the cart can hold: the
      GraphQL [Int] quantities (as [Z], exact for doubles below 2^53) and
      [NaN], which is what [Number] yields on a string it cannot read.
    - React elements are an inductive tree; the components are functions
      producing such trees.
    - The loader is written in a small state-and-exception monad whose state
      is the trace of storefront requests and awaits; promises are first
      class values settled against an oracle for the storefront. *)

From Stdlib Require Import ZArith Bool List Lia.
From Stdlib Require Import Decimal DecimalString DecimalZ DecimalPos.
From stdpp Require Import base strings list gmap.

#[local] Set Warnings "-register-all".

Local Open Scope string_scope.
Local Open Scope list_scope.
Local Open Scope Z_scope.

(* ===================================================================== *)
(** ** JavaScript numbers and the coercions the component uses *)
(* ===================================================================== *)

Module JS.

Inductive number :=
| Int (z : Z)
| NaN.

(** [a + b], [a - b] *)
Definition add (a b : number) : number :=
  match a, b with
  | Int x, Int y => Int (x + y)
  | _, _ => NaN
  end.

Definition sub (a b : number) : number :=
  match a, b with
  | Int x, Int y => Int (x - y)
  | _, _ => NaN
  end.

(** [Math.max(a, b)]: [NaN] as soon as one argument is. *)
Definition Math_max (a b : number) : number :=
  match a, b with
  | Int x, Int y => Int (Z.max x y)
  | _, _ => NaN
  end.

(** [a <= b] and [a > b]: every comparison with [NaN] is false. *)
Definition le (a b : number) : bool :=
  match a, b with
  | Int x, Int y => x <=? y
  | _, _ => false
  end.

Definition gt (a b : number) : bool :=
  match a, b with
  | Int x, Int y => x >? y
  | _, _ => false
  end.

(** Truthiness of a number: [0] and [NaN] are falsy. *)
Definition truthy (a : number) : bool :=
  match a with
  | Int x => negb (x =? 0)
  | NaN => false
  end.

(** [x.toFixed(0)] on an integral number: its decimal notation. *)
Definition toFixed0 (a : number) : string :=
  match a with
  | Int x => NilZero.string_of_int (Z.to_int x)
  | NaN => "NaN"
  end.

(** [Number(s)] on the empty string and on decimal integer literals;
    any other string is read as [NaN]. *)
Definition Number (s : string) : number :=
  match s with
  | EmptyString => Int 0
  | _ => match NilZero.int_of_string s with
         | Some d => Int (Z.of_int d)
         | None => NaN
         end
  end.

(** [!!b] for [b : boolean | undefined]. *)
Definition bangbang (b : option bool) : bool :=
  match b with
  | Some v => v
  | None => false
  end.

End JS.

(* ===================================================================== *)
(** ** Data: cart lines as the storefront fragment gives them *)
(* ===================================================================== *)

Record SelectedOption := {
  so_name : string;
  so_value : string
}.

Record MoneyV2 := {
  amount : string;
  currencyCode : string
}.

Record ImageData := {
  img_url : string;
  img_altText : option string
}.

Record LineProduct := {
  lp_handle : string;
  lp_title : string
}.

Record Merchandise := {
  quantityAvailable : option JS.number;      (* Maybe<number> *)
  product : LineProduct;
  title : string;
  image : option ImageData;
  selectedOptions : list SelectedOption
}.

Record LineCost := {
  totalAmount : option MoneyV2
}.

(** [OptimisticCartLine<CartApiQueryFragment>]: [quantity] may be missing
    at run time (the component tests for it), [isOptimistic] is optional. *)
Record CartLine := {
  id : string;
  quantity : option JS.number;
  isOptimistic : option bool;
  merchandise : Merchandise;
  cost : option LineCost
}.

(* ===================================================================== *)
(** ** Rendered elements *)
(* ===================================================================== *)

Inductive Icon := Minus | Plus | Trash.

(** [CartForm.ACTIONS] *)
Inductive CartAction := LinesUpdate | LinesRemove.

Record CartLineUpdateInput := {
  cu_id : string;
  cu_quantity : JS.number
}.

(** The [inputs] prop of a [CartForm]: [{lines}] or [{lineIds}]. *)
Inductive CartInputs :=
| InputLines (lines : list CartLineUpdateInput)
| InputLineIds (lineIds : list string).

Record ButtonProps := {
  btn_name : option string;
  btn_value : option JS.number;
  btn_disabled : bool;
  btn_ariaLabel : option string;
  btn_type : option string;
  btn_className : string
}.

Inductive node :=
| Null
| Text (s : string)
| NumText (n : JS.number)
| Div (key : option string) (className : string) (children : list node)
| Small (children : list node)
| P (className : string) (children : list node)
| IconEl (i : Icon)
| Button (props : ButtonProps) (children : list node)
| CartForm (route : string) (action : CartAction) (inputs : CartInputs)
           (children : list node)
| Card (key : string) (className : string) (children : list node)
| Image (alt : string) (data : ImageData)
| Link (to : string) (children : list node)
| SheetClose (className : string) (children : list node)
| ProductPrice (price : option MoneyV2).

(* ===================================================================== *)
(** ** The components of CartLineItem.tsx *)
(* ===================================================================== *)

Definition CartLineRemoveButton (lineIds : list string) (disabled : bool) : node :=
  CartForm "/cart" LinesRemove (InputLineIds lineIds)
    [ Button {| btn_name := None; btn_value := None;
                btn_disabled := disabled;
                btn_ariaLabel := None;
                btn_type := Some "submit";
                btn_className := "size-7 [&_svg]:size-5" |}
        [ IconEl Trash ] ].

Definition CartLineUpdateButton (ariaLabel : string) (disabled : bool)
    (children : list node) (value : JS.number)
    (lines : list CartLineUpdateInput) (name : string) : node :=
  CartForm "/cart" LinesUpdate (InputLines lines)
    [ Button {| btn_name := Some name; btn_value := Some value;
                btn_disabled := disabled;
                btn_ariaLabel := Some ariaLabel;
                btn_type := None;
                btn_className := "size-7 self-center [&_svg]:size-5" |}
        children ].

(** The locals of [CartLineQuantity], one definition per [const]. *)
Definition prevQuantity (quantity : JS.number) : JS.number :=
  JS.Number (JS.toFixed0 (JS.Math_max (JS.Int 0) (JS.sub quantity (JS.Int 1)))).

Definition nextQuantity (quantity : JS.number) : JS.number :=
  JS.Number (JS.toFixed0 (JS.add quantity (JS.Int 1))).

Definition isDecreaseDisabled (quantity : JS.number) (isOptimistic : option bool) : bool :=
  JS.le quantity (JS.Int 1) || JS.bangbang isOptimistic.

(** [quantityAvailable ? nextQuantity > quantityAvailable : !!isOptimistic]:
    the condition is the truthiness of a [Maybe<number>]. *)
Definition isIncreaseDisabled (quantity : JS.number)
    (quantityAvailable : option JS.number) (isOptimistic : option bool) : bool :=
  match quantityAvailable with
  | Some qa =>
      if JS.truthy qa then JS.gt (nextQuantity quantity) qa
      else JS.bangbang isOptimistic
  | None => JS.bangbang isOptimistic
  end.

Definition CartLineQuantity (line : option CartLine)
    (quantityAvailable : option JS.number) : node :=
  match line with
  | None => Null
  | Some line =>
      match quantity line with
      | None => Null
      | Some quantity =>
          let lineId := id line in
          let isOptimistic := isOptimistic line in
          Div None "mt-auto flex justify-between"
            [ Div None "flex gap-2 rounded-md border border-border/30"
                [ CartLineUpdateButton "Decrease quantity"
                    (isDecreaseDisabled quantity isOptimistic)
                    [ IconEl Minus ]
                    (prevQuantity quantity)
                    [ {| cu_id := lineId; cu_quantity := prevQuantity quantity |} ]
                    "decrease-quantity";
                  P "self-center leading-none" [ NumText quantity ];
                  CartLineUpdateButton "Increase quantity"
                    (isIncreaseDisabled quantity quantityAvailable isOptimistic)
                    [ IconEl Plus ]
                    (nextQuantity quantity)
                    [ {| cu_id := lineId; cu_quantity := nextQuantity quantity |} ]
                    "increase-quantity" ];
              CartLineRemoveButton [ lineId ] (JS.bangbang isOptimistic) ]
      end
  end.

(** [selectedOptions.map(option => option.name !== "Title" ? <div>..</div> : null)] *)
Definition renderOption (option : SelectedOption) : node :=
  if negb (String.eqb (so_name option) "Title") then
    Div (Some (so_name option)) EmptyString
      [ Small [ Text (so_name option); Text ": "; Text (so_value option) ] ]
  else Null.

Section CartLineItem.

(** [useVariantUrl] from [~/lib/variants]: the URL of a variant. *)
Variable useVariantUrl : string -> list SelectedOption -> string.

Definition CartLineItem (line : CartLine) : node :=
  let m := merchandise line in
  let lineItemUrl := useVariantUrl (lp_handle (product m)) (selectedOptions m) in
  Card (id line) "flex flex-row gap-2 space-y-0 border-none py-2 shadow-none"
    [ match image m with
      | Some img => Image (title m) img
      | None => Null
      end;
      Div None "flex w-full flex-col gap-2"
        [ Div None "flex w-full flex-wrap items-start justify-between gap-2 text-sm font-medium leading-none sm:text-lg"
            [ Link lineItemUrl
                [ SheetClose "hover:underline" [ Text (lp_title (product m)) ] ];
              ProductPrice (match cost line with
                            | Some c => totalAmount c
                            | None => None
                            end) ];
          Div None "flex h-full flex-col justify-between leading-none"
            (map renderOption (selectedOptions m)
             ++ [ CartLineQuantity (Some line) (quantityAvailable m) ]) ] ].

End CartLineItem.

(* ===================================================================== *)
(** ** Controls of a rendered tree and their activation *)
(* ===================================================================== *)

(** A control is a button together with the [CartForm] that encloses it. *)
Record Control := {
  ctl_route : string;
  ctl_action : CartAction;
  ctl_inputs : CartInputs;
  ctl_button : ButtonProps
}.

Fixpoint buttons (n : node) : list ButtonProps :=
  match n with
  | Button props _ => [ props ]
  | Div _ _ ch | Small ch | P _ ch | Card _ _ ch | Link _ ch
  | SheetClose _ ch | CartForm _ _ _ ch => flat_map buttons ch
  | Null | Text _ | NumText _ | IconEl _ | Image _ _ | ProductPrice _ => []
  end.

Fixpoint controls (n : node) : list Control :=
  match n with
  | CartForm route action inputs ch =>
      map (fun b => {| ctl_route := route; ctl_action := action;
                       ctl_inputs := inputs; ctl_button := b |})
          (flat_map buttons ch)
  | Div _ _ ch | Small ch | P _ ch | Card _ _ ch | Link _ ch
  | SheetClose _ ch | Button _ ch => flat_map controls ch
  | Null | Text _ | NumText _ | IconEl _ | Image _ _ | ProductPrice _ => []
  end.

Definition has_name (name : string) (c : Control) : bool :=
  match btn_name (ctl_button c) with
  | Some n => String.eqb n name
  | None => false
  end.

Definition is_remove (c : Control) : bool :=
  match ctl_action c with
  | LinesRemove => true
  | LinesUpdate => false
  end.

Definition decrease_control (n : node) : option Control :=
  find (has_name "decrease-quantity") (controls n).

Definition increase_control (n : node) : option Control :=
  find (has_name "increase-quantity") (controls n).

Definition removal_control (n : node) : option Control :=
  find is_remove (controls n).

Definition disabled (c : Control) : bool := btn_disabled (ctl_button c).

(** What reaches the cart route when a form is posted. *)
Record CartMutationRequest := {
  req_route : string;
  req_action : CartAction;
  req_inputs : CartInputs
}.

(** Modelled from the spec: the cart-mutation submission mechanism, an
    external collaborator (hydrogen's [CartForm]) that accepts an action tag
    and an input payload and posts them to a fixed route.  Activating a
    button posts the enclosing form; a disabled button cannot be activated. *)
Definition activate (c : Control) : option CartMutationRequest :=
  if disabled c then None
  else Some {| req_route := ctl_route c;
               req_action := ctl_action c;
               req_inputs := ctl_inputs c |}.

(** The option rows of a rendered tree: the keyed [div]s holding
    [name: value], as (name, value) pairs in document order. *)
Fixpoint renderedOptions (n : node) : list (string * string) :=
  match n with
  | Div (Some _) _ [ Small [ Text name; Text _; Text value ] ] => [ (name, value) ]
  | Div _ _ ch | Small ch | P _ ch | Card _ _ ch | Link _ ch
  | SheetClose _ ch | CartForm _ _ _ ch | Button _ ch =>
      flat_map renderedOptions ch
  | Null | Text _ | NumText _ | IconEl _ | Image _ _ | ProductPrice _ => []
  end.

#[global] Instance SelectedOption_eq_dec : EqDecision SelectedOption.
Proof. solve_decision. Defined.

(* ===================================================================== *)
(** ** The product route: promises, the storefront and the loader monad *)
(* ===================================================================== *)

Inductive QueryDoc := PRODUCT_QUERY | RECOMMENDED_PRODUCTS_QUERY.

Record QueryVariables := {
  v_handle : string;
  v_selectedOptions : list SelectedOption
}.

Record Product := {
  p_id : string;
  p_title : string;
  p_handle : string;
  p_vendor : string;
  p_descriptionHtml : string
}.

Record Shop := {
  primaryDomain_url : string
}.

(** What is thrown or rejected with: an [Error], or a [Response]. *)
Inductive thrown :=
| ErrorObj (message : string)
| ResponseObj (status : Z).

(** Values a storefront promise can be fulfilled with. *)
Inductive value :=
| VNull
| VProductQuery (product : option Product) (shop : Shop)
| VRecommended (nodes : list Product)
| VArray (elements : list value).

Inductive settled :=
| Fulfilled (v : value)
| Rejected (e : thrown).

(** A promise is known by how it was made.  A storefront request carries
    the answer the storefront will give it; [Catch] is [p.catch(h)], the
    handler returning what it logs with [console.error] and how it ends;
    [All] is [Promise.all]. *)
Inductive promise :=
| Query (doc : QueryDoc) (variables : option QueryVariables) (answer : settled)
| Catch (p : promise) (onRejected : thrown -> list thrown * settled)
| All (ps : list promise).

(** How a promise settles, with the lines written to the console on the
    way.  [All] is fulfilled with the array of results, or rejected with
    the leftmost rejection (exact for the one-element array of the route). *)
Fixpoint settle (p : promise) : settled * list thrown :=
  match p with
  | Query _ _ answer => (answer, [])
  | Catch p onRejected =>
      match settle p with
      | (Fulfilled v, out) => (Fulfilled v, out)
      | (Rejected e, out) =>
          let '(out', r) := onRejected e in (r, out ++ out')
      end
  | All ps =>
      (fix all (ps : list promise) : settled * list thrown :=
         match ps with
         | [] => (Fulfilled (VArray []), [])
         | p :: ps' =>
             match settle p, all ps' with
             | (Rejected e, out), (_, out') => (Rejected e, out ++ out')
             | (Fulfilled _, out), (Rejected e, out') => (Rejected e, out ++ out')
             | (Fulfilled v, out), (Fulfilled (VArray vs), out') =>
                 (Fulfilled (VArray (v :: vs)), out ++ out')
             | (Fulfilled v, out), (Fulfilled _, out') =>
                 (Fulfilled (VArray [ v ]), out ++ out')
             end
         end) ps
  end.

(** The storefront client of the request context. *)
Record Storefront := {
  respond : QueryDoc -> option QueryVariables -> settled
}.

Record Request := {
  url : string
}.

Record LoaderFunctionArgs := {
  storefront : Storefront;          (* context.storefront *)
  params_handle : option string;    (* params.handle *)
  request : Request
}.

(** What the loader does that can be observed from outside. *)
Inductive event :=
| Issued (doc : QueryDoc) (variables : option QueryVariables)
| Awaited (p : promise).

Inductive result (A : Type) :=
| Ok (a : A)
| Throw (e : thrown).
Arguments Ok {A} a.
Arguments Throw {A} e.

(** State (the trace so far) and exceptions. *)
Definition M (A : Type) : Type := list event -> result A * list event.

Definition ret {A} (a : A) : M A := fun tr => (Ok a, tr).

Definition bind {A B} (m : M A) (k : A -> M B) : M B :=
  fun tr =>
    match m tr with
    | (Ok a, tr') => k a tr'
    | (Throw e, tr') => (Throw e, tr')
    end.

Definition throw {A} (e : thrown) : M A := fun tr => (Throw e, tr).

Definition emit (ev : event) : M unit := fun tr => (Ok tt, tr ++ [ ev ]).

Notation "x <- m ;; k" := (bind m (fun x => k))
  (at level 100, m at next level, right associativity).
Notation "m ;;; k" := (bind m (fun _ => k))
  (at level 100, right associativity).

Definition run {A} (m : M A) : result A * list event := m [].

(** [storefront.query(doc, {variables})]: the request leaves now, the
    promise settles later; the call itself hands back the promise and does
    not throw. *)
Definition query (sf : Storefront) (doc : QueryDoc)
    (variables : option QueryVariables) : M promise :=
  emit (Issued doc variables) ;;;
  ret (Query doc variables (respond sf doc variables)).

(** [await p] *)
Definition await (p : promise) : M value :=
  emit (Awaited p) ;;;
  match fst (settle p) with
  | Fulfilled v => ret v
  | Rejected e => throw e
  end.

(** Truthiness of a string: only the empty string is falsy. *)
Definition truthy_string (s : string) : bool := negb (String.eqb s EmptyString).

(** The fields of the loader's payload. *)
Inductive field :=
| FProduct (p : Product)
| FString (s : string)
| FPromise (p : promise).

(** [defer] wraps the payload for streaming and leaves its entries alone. *)
Definition defer (data : gmap string field) : gmap string field := data.

(** The handler of [loadDeferredData]:
    [(error) => { console.error(error); return null; }] *)
Definition logAndNull (error : thrown) : list thrown * settled :=
  ([ error ], Fulfilled VNull).

Definition loadDeferredData (args : LoaderFunctionArgs) : M (gmap string field) :=
  q <- query (storefront args) RECOMMENDED_PRODUCTS_QUERY None ;;
  let recommendedProducts := Catch q logAndNull in
  ret {[ "recommendedProducts" := FPromise recommendedProducts ]}.

Section Loader.

(** [getSelectedProductOptions] of hydrogen: the selected options encoded
    in the request's query parameters. *)
Variable getSelectedProductOptions : Request -> list SelectedOption.

Definition loadCriticalData (args : LoaderFunctionArgs) : M (gmap string field) :=
  match params_handle args with
  | Some handle =>
      if truthy_string handle then
        q <- query (storefront args) PRODUCT_QUERY
               (Some {| v_handle := handle;
                        v_selectedOptions :=
                          getSelectedProductOptions (request args) |}) ;;
        r <- await (All [ q ]) ;;
        match r with
        | VArray (VProductQuery product shop :: _) =>
            match product with
            | Some product =>
                if truthy_string (p_id product) then
                  ret (<[ "product" := FProduct product ]>
                       {[ "storeDomain" := FString (primaryDomain_url shop) ]})
                else throw (ResponseObj 404)
            | None => throw (ResponseObj 404)
            end
        | _ => throw (ErrorObj "TypeError")
        end
      else throw (ErrorObj "Expected product handle to be defined")
  | None => throw (ErrorObj "Expected product handle to be defined")
  end.

Definition loader (args : LoaderFunctionArgs) : M (gmap string field) :=
  deferredData <- loadDeferredData args ;;
  criticalData <- loadCriticalData args ;;
  ret (defer (criticalData ∪ deferredData)).

End Loader.

(* ===================================================================== *)
(** ** The claims of the specification, in its own words *)
(* ===================================================================== *)

(** "The line is optimistic": the flag is present and true. *)
Definition optimistic (line : CartLine) : Prop := isOptimistic line = Some true.

(** The increase control's disabling condition as the specification words
    it: quantity-available is known and the candidate exceeds it, or it is
    unknown and the line is optimistic. *)
Definition increase_disabled_as_stated (line : CartLine) (q : Z)
    (qa : option Z) : Prop :=
  (exists a, qa = Some a /\ q + 1 > a) \/ (qa = None /\ optimistic line).

(** The same with a stock of zero counted as unknown, the way the
    component's truthiness test reads it. *)
Definition increase_disabled_amended (line : CartLine) (q : Z)
    (qa : option Z) : Prop :=
  (exists a, qa = Some a /\ a <> 0 /\ q + 1 > a)
  \/ ((qa = None \/ qa = Some 0) /\ optimistic line).

(** The request a quantity control of [line] posts for quantity [n]. *)
Definition update_request (line : CartLine) (n : Z) : CartMutationRequest :=
  {| req_route := "/cart";
     req_action := LinesUpdate;
     req_inputs := InputLines [ {| cu_id := id line; cu_quantity := JS.Int n |} ] |}.

Definition remove_request (line : CartLine) : CartMutationRequest :=
  {| req_route := "/cart";
     req_action := LinesRemove;
     req_inputs := InputLineIds [ id line ] |}.

(** Sample lines for the scenarios of the specification. *)
Definition sample_merchandise (qa : option Z) (options : list SelectedOption) : Merchandise :=
  {| quantityAvailable := JS.Int <$> qa;
     product := {| lp_handle := "taza"; lp_title := "Taza" |};
     title := "Azul";
     image := None;
     selectedOptions := options |}.

Definition sample_line (q : Z) (qa : option Z) (opt : option bool) : CartLine :=
  {| id := "gid://shopify/CartLine/1";
     quantity := Some (JS.Int q);
     isOptimistic := opt;
     merchandise := sample_merchandise qa [];
     cost := None |}.

Definition sample_line_without_quantity : CartLine :=
  {| id := "gid://shopify/CartLine/2";
     quantity := None;
     isOptimistic := None;
     merchandise := sample_merchandise None [];
     cost := None |}.

Definition sample_options : list SelectedOption :=
  [ {| so_name := "Title"; so_value := "Default Title" |};
    {| so_name := "Color"; so_value := "Azul" |};
    {| so_name := "Talla"; so_value := "M" |} ].

Definition sample_line_with_options : CartLine :=
  {| id := "gid://shopify/CartLine/3";
     quantity := Some (JS.Int 1);
     isOptimistic := None;
     merchandise := sample_merchandise None sample_options;
     cost := None |}.

(** "The handle route parameter is absent": [params.handle] is undefined
    (the component's test also rejects the empty string). *)
Definition handle_absent (args : LoaderFunctionArgs) : Prop :=
  params_handle args = None \/ params_handle args = Some EmptyString.

(** "The product does not resolve to a valid identifier": the storefront
    answers with no product, or with one whose [id] is empty. *)
Definition unresolved (product : option Product) : Prop :=
  product = None \/ exists p, product = Some p /\ p_id p = EmptyString.

(** The promise [loadDeferredData] stores under [recommendedProducts]. *)
Definition recommendedPromise (args : LoaderFunctionArgs) : promise :=
  Catch (Query RECOMMENDED_PRODUCTS_QUERY None
           (respond (storefront args) RECOMMENDED_PRODUCTS_QUERY None))
        logAndNull.

(** The variables and the promise of the critical request. *)
Definition productVariables (options : list SelectedOption) (handle : string)
    : option QueryVariables :=
  Some {| v_handle := handle; v_selectedOptions := options |}.

Definition productPromise (args : LoaderFunctionArgs)
    (options : list SelectedOption) (handle : string) : promise :=
  Query PRODUCT_QUERY (productVariables options handle)
        (respond (storefront args) PRODUCT_QUERY (productVariables options handle)).

(** Sample storefronts and requests. *)
Definition sample_product (id : string) : Product :=
  {| p_id := id; p_title := "Taza"; p_handle := "taza";
     p_vendor := "SanArte"; p_descriptionHtml := "<p>Taza</p>" |}.

Definition sample_shop : Shop :=
  {| primaryDomain_url := "https://sanarte.example" |}.

Definition sample_storefront (productAnswer recommendedAnswer : settled) : Storefront :=
  {| respond := fun doc _ =>
       match doc with
       | PRODUCT_QUERY => productAnswer
       | RECOMMENDED_PRODUCTS_QUERY => recommendedAnswer
       end |}.

Definition sample_args (handle : option string)
    (productAnswer recommendedAnswer : settled) : LoaderFunctionArgs :=
  {| storefront := sample_storefront productAnswer recommendedAnswer;
     params_handle := handle;
     request := {| url := "https://sanarte.example/products/taza" |} |}.

Definition found : settled :=
  Fulfilled (VProductQuery (Some (sample_product "gid://shopify/Product/1")) sample_shop).

Definition not_found : settled :=
  Fulfilled (VProductQuery None sample_shop).

Definition network_down : settled := Rejected (ErrorObj "fetch failed").

(** How often [x] occurs in [l]. *)
Definition occurrences `{EqDecision A} (x : A) (l : list A) : nat :=
  length (filter (fun y => y = x) l).

(** The name and value an option row shows. *)
Definition shown (option : SelectedOption) : string * string :=
  (so_name option, so_value option).

(** The three controls [CartLineQuantity] builds for a line of quantity
    [n]: the props it passes to [CartLineUpdateButton] (twice) and to
    [CartLineRemoveButton], under the form each of them wraps around. *)
Definition decreaseOf (line : CartLine) (n : JS.number) : Control :=
  {| ctl_route := "/cart"; ctl_action := LinesUpdate;
     ctl_inputs := InputLines [ {| cu_id := id line; cu_quantity := prevQuantity n |} ];
     ctl_button :=
       {| btn_name := Some "decrease-quantity"; btn_value := Some (prevQuantity n);
          btn_disabled := isDecreaseDisabled n (isOptimistic line);
          btn_ariaLabel := Some "Decrease quantity"; btn_type := None;
          btn_className := "size-7 self-center [&_svg]:size-5" |} |}.

Definition increaseOf (line : CartLine) (n : JS.number) (qa : option JS.number) : Control :=
  {| ctl_route := "/cart"; ctl_action := LinesUpdate;
     ctl_inputs := InputLines [ {| cu_id := id line; cu_quantity := nextQuantity n |} ];
     ctl_button :=
       {| btn_name := Some "increase-quantity"; btn_value := Some (nextQuantity n);
          btn_disabled := isIncreaseDisabled n qa (isOptimistic line);
          btn_ariaLabel := Some "Increase quantity"; btn_type := None;
          btn_className := "size-7 self-center [&_svg]:size-5" |} |}.

Definition removeOf (line : CartLine) : Control :=
  {| ctl_route := "/cart"; ctl_action := LinesRemove;
     ctl_inputs := InputLineIds [ id line ];
     ctl_button :=
       {| btn_name := None; btn_value := None;
          btn_disabled := JS.bangbang (isOptimistic line);
          btn_ariaLabel := None; btn_type := Some "submit";
          btn_className := "size-7 [&_svg]:size-5" |} |}.

(* ===================================================================== *)
(** ** The rest of the route module: [meta] and the product-view event *)
(* ===================================================================== *)

Inductive MetaDescriptor :=
| MetaTitle (title : string)
| MetaLink (rel href : string).

(** [meta({data})].  [data] is the loader's payload, or nothing when the
    loader threw.  [data?.product.title] reads a property of [data.product]:
    a [TypeError] when the key is missing, [undefined] on a string or a
    promise; an undefined title falls back to the empty string ([??]) and an
    undefined handle is printed by the template as the word undefined. *)
Definition meta (data : option (gmap string field)) : result (list MetaDescriptor) :=
  match data with
  | None =>
      Ok [ MetaTitle (String.append "SanArte | " EmptyString);
           MetaLink "canonical" (String.append "/products/" "undefined") ]
  | Some data =>
      match data !! "product" with
      | Some (FProduct product) =>
          Ok [ MetaTitle (String.append "SanArte | " (p_title product));
               MetaLink "canonical" (String.append "/products/" (p_handle product)) ]
      | Some (FString _) | Some (FPromise _) =>
          Ok [ MetaTitle (String.append "SanArte | " EmptyString);
               MetaLink "canonical" (String.append "/products/" "undefined") ]
      | None => Throw (ErrorObj "TypeError")
      end
  end.





(** The line identifiers a form's inputs name. *)
Definition targets (inputs : CartInputs) : list string :=
  match inputs with
  | InputLines lines => map cu_id lines
  | InputLineIds lineIds => lineIds
  end.

(** The payload of a successful load. *)
Definition pagePayload (args : LoaderFunctionArgs) (p : Product) (shop : Shop)
    : gmap string field :=
  <[ "product" := FProduct p ]>
    {[ "storeDomain" := FString (primaryDomain_url shop) ]}
  ∪ {[ "recommendedProducts" := FPromise (recommendedPromise args) ]}.


(* ===================================================================== *)
(** * Theorems *)
(* ===================================================================== *)

(** ** Numbers *)

Lemma to_int_not_nil (z : Z) : Z.to_int z <> Pos Nil /\ Z.to_int z <> Neg Nil.
Proof.
  destruct z as [|p|p]; simpl; split; try discriminate;
    intros [= H]; exact (Unsigned.to_uint_nonnil p H).
Qed.

(** Printing an integral number with no decimals and reading it back gives
    the number again. *)
Lemma Number_toFixed0 (n : JS.number) : JS.Number (JS.toFixed0 n) = n.
Proof.
  destruct n as [z|]; [|reflexivity].
  unfold JS.Number, JS.toFixed0.
  destruct (to_int_not_nil z) as [Hp Hn].
  pose proof (NilZero.isi (Z.to_int z) Hp Hn) as Hisi.
  destruct (NilZero.string_of_int (Z.to_int z)) as [|a s] eqn:E.
  - discriminate Hisi.
  - rewrite Hisi. f_equal. apply DecimalZ.of_to.
Qed.

Lemma prevQuantity_Int (q : Z) : prevQuantity (JS.Int q) = JS.Int (Z.max 0 (q - 1)).
Proof. unfold prevQuantity. now rewrite Number_toFixed0. Qed.

Lemma nextQuantity_Int (q : Z) : nextQuantity (JS.Int q) = JS.Int (q + 1).
Proof. unfold nextQuantity. now rewrite Number_toFixed0. Qed.

Lemma bangbang_true (b : option bool) : JS.bangbang b = true <-> b = Some true.
Proof. destruct b as [[|]|]; simpl; split; congruence. Qed.

(** ** The quantity cluster and its three controls *)

Lemma controls_CartLineQuantity (line : CartLine) (n : JS.number)
    (qa : option JS.number) :
  quantity line = Some n ->
  controls (CartLineQuantity (Some line) qa)
  = [ decreaseOf line n; increaseOf line n qa; removeOf line ].
Proof. intros H. unfold CartLineQuantity. rewrite H. reflexivity. Qed.

Lemma decrease_control_CartLineQuantity line n qa :
  quantity line = Some n ->
  decrease_control (CartLineQuantity (Some line) qa) = Some (decreaseOf line n).
Proof.
  intros H. unfold decrease_control.
  now rewrite (controls_CartLineQuantity line n qa H).
Qed.

Lemma increase_control_CartLineQuantity line n qa :
  quantity line = Some n ->
  increase_control (CartLineQuantity (Some line) qa) = Some (increaseOf line n qa).
Proof.
  intros H. unfold increase_control.
  now rewrite (controls_CartLineQuantity line n qa H).
Qed.

Lemma removal_control_CartLineQuantity line n qa :
  quantity line = Some n ->
  removal_control (CartLineQuantity (Some line) qa) = Some (removeOf line).
Proof.
  intros H. unfold removal_control.
  now rewrite (controls_CartLineQuantity line n qa H).
Qed.

(** Scenarios of the specification, run on the component. *)
Example scenario_3_of_5 :
  map disabled (controls (CartLineQuantity (Some (sample_line 3 (Some 5) None))
                                           (Some (JS.Int 5))))
  = [ false; false; false ].
Proof. reflexivity. Qed.

Example scenario_1_of_1 :
  map disabled (controls (CartLineQuantity (Some (sample_line 1 (Some 1) None))
                                           (Some (JS.Int 1))))
  = [ true; true; false ].
Proof. reflexivity. Qed.

Example scenario_optimistic_unknown_stock :
  map disabled (controls (CartLineQuantity (Some (sample_line 2 None (Some true)))
                                           None))
  = [ true; true; true ].
Proof. reflexivity. Qed.

(** C3. For a line of quantity [q], the decrease control carries the
    candidate [max(0, q - 1)] (an integer, both as the button's value and as
    the quantity of the one line it updates), it is disabled exactly when
    [q <= 1] or the line is optimistic, and activating it posts an update of
    this line to the candidate. *)
Theorem decrease_control_spec (line : CartLine) (q : Z) (qa : option Z) :
  quantity line = Some (JS.Int q) ->
  exists c,
    decrease_control (CartLineQuantity (Some line) (JS.Int <$> qa)) = Some c
    /\ prevQuantity (JS.Int q) = JS.Int (Z.max 0 (q - 1))
    /\ btn_value (ctl_button c) = Some (JS.Int (Z.max 0 (q - 1)))
    /\ (disabled c = true <-> q <= 1 \/ optimistic line)
    /\ (disabled c = false ->
        activate c = Some (update_request line (Z.max 0 (q - 1)))).
Proof.
  intros Hq. exists (decreaseOf line (JS.Int q)).
  split; [now apply decrease_control_CartLineQuantity|].
  split; [apply prevQuantity_Int|].
  split; [simpl; now rewrite prevQuantity_Int|].
  split.
  - unfold disabled, decreaseOf, isDecreaseDisabled, optimistic; simpl.
    rewrite orb_true_iff, Z.leb_le, bangbang_true. reflexivity.
  - intros Hd. unfold activate. rewrite Hd.
    unfold update_request; simpl. now rewrite prevQuantity_Int.
Qed.

Lemma decrease_control_spec_witness :
  exists c,
    decrease_control
      (CartLineQuantity (Some (sample_line 3 (Some 5) None)) (JS.Int <$> Some 5))
    = Some c
    /\ prevQuantity (JS.Int 3) = JS.Int (Z.max 0 (3 - 1))
    /\ btn_value (ctl_button c) = Some (JS.Int (Z.max 0 (3 - 1)))
    /\ (disabled c = true <-> 3 <= 1 \/ optimistic (sample_line 3 (Some 5) None))
    /\ (disabled c = false ->
        activate c
        = Some (update_request (sample_line 3 (Some 5) None) (Z.max 0 (3 - 1)))).
Proof.
  apply (decrease_control_spec (sample_line 3 (Some 5) None) 3 (Some 5)).
  reflexivity.
Defined.

(** C2, as the specification states it, fails on a stock of zero: a line of
    quantity 1 that is not optimistic, with quantity-available 0, has its
    increase control enabled although the stock is known and 2 > 0. *)
Lemma increase_control_zero_stock_counterexample :
  exists c,
    increase_control
      (CartLineQuantity (Some (sample_line 1 (Some 0) (Some false)))
                        (JS.Int <$> Some 0)) = Some c
    /\ ~ (disabled c = true
          <-> increase_disabled_as_stated
                (sample_line 1 (Some 0) (Some false)) 1 (Some 0)).
Proof.
  eexists. split; [reflexivity|].
  intros [_ Hback].
  assert (Hs : increase_disabled_as_stated
                 (sample_line 1 (Some 0) (Some false)) 1 (Some 0)).
  { left. exists 0. split; [reflexivity | lia]. }
  specialize (Hback Hs). discriminate Hback.
Qed.

(** C2, amended. For a line of quantity [q], the increase control carries
    the candidate [q + 1], and it is disabled exactly when quantity-available
    is a non-zero number below the candidate, or quantity-available is
    absent or zero and the line is optimistic; activating it posts an
    update of this line to the candidate. *)
Theorem increase_control_spec (line : CartLine) (q : Z) (qa : option Z) :
  quantity line = Some (JS.Int q) ->
  exists c,
    increase_control (CartLineQuantity (Some line) (JS.Int <$> qa)) = Some c
    /\ nextQuantity (JS.Int q) = JS.Int (q + 1)
    /\ btn_value (ctl_button c) = Some (JS.Int (q + 1))
    /\ (disabled c = true <-> increase_disabled_amended line q qa)
    /\ (disabled c = false -> activate c = Some (update_request line (q + 1))).
Proof.
  intros Hq. exists (increaseOf line (JS.Int q) (JS.Int <$> qa)).
  split; [now apply increase_control_CartLineQuantity|].
  split; [apply nextQuantity_Int|].
  split; [simpl; now rewrite nextQuantity_Int|].
  split.
  - unfold disabled, increaseOf, isIncreaseDisabled, increase_disabled_amended,
      optimistic; simpl.
    destruct qa as [a|]; simpl.
    + rewrite nextQuantity_Int; simpl.
      destruct (Z.eqb_spec a 0) as [->|Hne]; simpl.
      * rewrite bangbang_true. split.
        -- intros Ho. right. split; [now right | exact Ho].
        -- intros [(a & [= <-] & Ha & _) | [_ Ho]]; [congruence | exact Ho].
      * rewrite Z.gtb_gt. split.
        -- intros Hgt. left. exists a. repeat split; [exact Hne | lia].
        -- intros [(a' & [= <-] & _ & Hgt) | [[H | [= H]] _]];
             [lia | discriminate H | congruence].
    + rewrite bangbang_true. split.
      * intros Ho. right. split; [now left | exact Ho].
      * intros [(a & H & _) | [_ Ho]]; [discriminate H | exact Ho].
  - intros Hd. unfold activate. rewrite Hd.
    unfold update_request; simpl. now rewrite nextQuantity_Int.
Qed.

Lemma increase_control_spec_witness :
  exists c,
    increase_control
      (CartLineQuantity (Some (sample_line 3 (Some 5) None)) (JS.Int <$> Some 5))
    = Some c
    /\ nextQuantity (JS.Int 3) = JS.Int (3 + 1)
    /\ btn_value (ctl_button c) = Some (JS.Int (3 + 1))
    /\ (disabled c = true
        <-> increase_disabled_amended (sample_line 3 (Some 5) None) 3 (Some 5))
    /\ (disabled c = false ->
        activate c = Some (update_request (sample_line 3 (Some 5) None) (3 + 1))).
Proof.
  apply (increase_control_spec (sample_line 3 (Some 5) None) 3 (Some 5)).
  reflexivity.
Defined.

(** C1. On an optimistic line the decrease and the removal control are
    disabled whatever the quantity and the stock, but the increase control
    is not: with quantity 2 and quantity-available 5 it stays enabled, the
    optimistic flag being consulted only when the stock is absent or zero. *)
Theorem optimistic_line_increase_enabled :
  optimistic (sample_line 2 (Some 5) (Some true))
  /\ map (fun c => (btn_name (ctl_button c), disabled c))
         (controls (CartLineQuantity (Some (sample_line 2 (Some 5) (Some true)))
                                     (JS.Int <$> Some 5)))
     = [ (Some "decrease-quantity", true);
         (Some "increase-quantity", false);
         (None, true) ].
Proof. split; reflexivity. Qed.

(** The part of the optimistic guard that the component does enforce. *)
Lemma optimistic_line_decrease_remove_disabled (line : CartLine) (q : Z)
    (qa : option Z) :
  quantity line = Some (JS.Int q) ->
  optimistic line ->
  exists d r,
    decrease_control (CartLineQuantity (Some line) (JS.Int <$> qa)) = Some d
    /\ removal_control (CartLineQuantity (Some line) (JS.Int <$> qa)) = Some r
    /\ disabled d = true
    /\ disabled r = true.
Proof.
  unfold optimistic. intros Hq Ho.
  exists (decreaseOf line (JS.Int q)), (removeOf line).
  split; [now apply decrease_control_CartLineQuantity|].
  split; [now apply (removal_control_CartLineQuantity line (JS.Int q))|].
  unfold disabled, decreaseOf, removeOf, isDecreaseDisabled; simpl.
  rewrite Ho; simpl. now rewrite orb_true_r.
Qed.

(** C6. The removal control of a line is disabled exactly when the line is
    optimistic: it is the same control for every quantity and every
    quantity-available.  It belongs to a remove form whose target list is
    the singleton of this line's identifier, which is what activating it
    posts. *)
Theorem removal_control_spec (line : CartLine) (n : JS.number)
    (qa : option JS.number) :
  quantity line = Some n ->
  exists c,
    removal_control (CartLineQuantity (Some line) qa) = Some c
    /\ c = removeOf line
    /\ (disabled c = true <-> optimistic line)
    /\ ctl_action c = LinesRemove
    /\ ctl_inputs c = InputLineIds [ id line ]
    /\ (disabled c = false -> activate c = Some (remove_request line)).
Proof.
  intros Hq. exists (removeOf line).
  split; [now apply (removal_control_CartLineQuantity line n)|].
  split; [reflexivity|].
  split; [apply bangbang_true|].
  split; [reflexivity|]. split; [reflexivity|].
  intros Hd. unfold activate. now rewrite Hd.
Qed.

Lemma removal_control_spec_witness :
  exists c,
    removal_control
      (CartLineQuantity (Some (sample_line 1 (Some 1) (Some true))) (Some (JS.Int 1)))
    = Some c
    /\ c = removeOf (sample_line 1 (Some 1) (Some true))
    /\ (disabled c = true <-> optimistic (sample_line 1 (Some 1) (Some true)))
    /\ ctl_action c = LinesRemove
    /\ ctl_inputs c = InputLineIds [ id (sample_line 1 (Some 1) (Some true)) ]
    /\ (disabled c = false ->
        activate c = Some (remove_request (sample_line 1 (Some 1) (Some true)))).
Proof.
  apply (removal_control_spec (sample_line 1 (Some 1) (Some true)) (JS.Int 1)).
  reflexivity.
Defined.

(** C9. A missing line, or a line whose quantity is undefined, renders no
    quantity cluster: the component returns [null], which holds no control
    and no quantity text. *)
Theorem CartLineQuantity_undefined_quantity (qa : option JS.number) :
  CartLineQuantity None qa = Null
  /\ controls (CartLineQuantity None qa) = []
  /\ forall line : CartLine,
       quantity line = None ->
       CartLineQuantity (Some line) qa = Null
       /\ controls (CartLineQuantity (Some line) qa) = []
       /\ decrease_control (CartLineQuantity (Some line) qa) = None
       /\ increase_control (CartLineQuantity (Some line) qa) = None
       /\ removal_control (CartLineQuantity (Some line) qa) = None.
Proof.
  split; [reflexivity|]. split; [reflexivity|].
  intros line Hq. unfold CartLineQuantity. rewrite Hq. repeat split.
Qed.

Lemma CartLineQuantity_undefined_quantity_witness :
  CartLineQuantity (Some sample_line_without_quantity) (Some (JS.Int 4)) = Null
  /\ controls (CartLineQuantity (Some sample_line_without_quantity) (Some (JS.Int 4))) = [].
Proof.
  destruct (CartLineQuantity_undefined_quantity (Some (JS.Int 4)))
    as (_ & _ & H).
  destruct (H sample_line_without_quantity eq_refl) as (H1 & H2 & _).
  split; [exact H1 | exact H2].
Defined.

(** C10. With quantity-available exactly 0 the increase control is the one
    rendered when quantity-available is absent: its disabled state is the
    line's optimistic flag, although for a quantity [q >= 0] the candidate
    [q + 1] exceeds 0. *)
Theorem increase_control_zero_stock (line : CartLine) (q : Z) :
  quantity line = Some (JS.Int q) ->
  exists c,
    increase_control (CartLineQuantity (Some line) (Some (JS.Int 0))) = Some c
    /\ increase_control (CartLineQuantity (Some line) None) = Some c
    /\ disabled c = JS.bangbang (isOptimistic line)
    /\ (disabled c = true <-> optimistic line)
    /\ (0 <= q -> JS.gt (nextQuantity (JS.Int q)) (JS.Int 0) = true).
Proof.
  intros Hq. exists (increaseOf line (JS.Int q) None).
  split; [now rewrite (increase_control_CartLineQuantity line (JS.Int q))|].
  split; [now apply increase_control_CartLineQuantity|].
  split; [reflexivity|].
  split; [apply bangbang_true|].
  intros Hq0. rewrite nextQuantity_Int. simpl. apply Z.gtb_gt. lia.
Qed.

Lemma increase_control_zero_stock_witness :
  exists c,
    increase_control
      (CartLineQuantity (Some (sample_line 1 (Some 0) None)) (Some (JS.Int 0)))
    = Some c
    /\ increase_control (CartLineQuantity (Some (sample_line 1 (Some 0) None)) None)
       = Some c
    /\ disabled c = JS.bangbang (isOptimistic (sample_line 1 (Some 0) None))
    /\ (disabled c = true <-> optimistic (sample_line 1 (Some 0) None))
    /\ (0 <= 1 -> JS.gt (nextQuantity (JS.Int 1)) (JS.Int 0) = true).
Proof.
  apply (increase_control_zero_stock (sample_line 1 (Some 0) None) 1).
  reflexivity.
Defined.

(** ** The selected options of a line *)

Lemma renderedOptions_renderOption (o : SelectedOption) :
  renderedOptions (renderOption o)
  = if decide (so_name o <> "Title") then [ shown o ] else [].
Proof.
  unfold renderOption.
  destruct (String.eqb_spec (so_name o) "Title") as [E|E]; simpl;
    destruct (decide (so_name o <> "Title")) as [D|D];
    try reflexivity; contradiction.
Qed.

Lemma renderedOptions_map_renderOption (opts : list SelectedOption) :
  flat_map renderedOptions (map renderOption opts)
  = map shown (filter (fun o => so_name o <> "Title") opts).
Proof.
  induction opts as [|o opts IH]; [reflexivity|].
  cbn [map flat_map]. rewrite IH, renderedOptions_renderOption, filter_cons.
  destruct (decide (so_name o <> "Title")); reflexivity.
Qed.

Lemma renderedOptions_CartLineQuantity line qa :
  renderedOptions (CartLineQuantity line qa) = [].
Proof.
  destruct line as [line|]; [|reflexivity].
  unfold CartLineQuantity. destruct (quantity line); reflexivity.
Qed.

Lemma shown_inj (o o' : SelectedOption) : shown o = shown o' -> o = o'.
Proof. destruct o, o'; unfold shown; simpl; congruence. Qed.

Lemma occurrences_shown (o : SelectedOption) (opts : list SelectedOption) :
  so_name o <> "Title" ->
  occurrences (shown o) (map shown (filter (fun o' => so_name o' <> "Title") opts))
  = occurrences o opts.
Proof.
  intros Hne. unfold occurrences.
  induction opts as [|o' opts IH]; [reflexivity|].
  rewrite (filter_cons (fun y => y = o)).
  rewrite (filter_cons (fun o' => so_name o' <> "Title")).
  destruct (decide (o' = o)) as [->|Hoo].
  - destruct (decide (so_name o <> "Title")); [|contradiction].
    cbn [map]. rewrite (filter_cons (fun y => y = shown o)).
    destruct (decide (shown o = shown o)); [|contradiction].
    cbn [length]. now rewrite IH.
  - destruct (decide (so_name o' <> "Title")); [|exact IH].
    cbn [map]. rewrite (filter_cons (fun y => y = shown o)).
    destruct (decide (shown o' = shown o)) as [Hs|Hs]; [|exact IH].
    apply shown_inj in Hs. contradiction.
Qed.

Section CartLineItemFacts.

Variable useVariantUrl : string -> list SelectedOption -> string.

Lemma renderedOptions_CartLineItem (line : CartLine) :
  renderedOptions (CartLineItem useVariantUrl line)
  = map shown (filter (fun o => so_name o <> "Title")
                      (selectedOptions (merchandise line))).
Proof.
  unfold CartLineItem.
  cbn [renderedOptions flat_map].
  rewrite flat_map_app, renderedOptions_map_renderOption.
  cbn [flat_map]. rewrite renderedOptions_CartLineQuantity.
  destruct (image (merchandise line)); cbn [renderedOptions];
    now rewrite !app_nil_r.
Qed.

(** C7. Among the option rows a cart line renders, none shows the name
    "Title" (the map yields [null] for such an option), and every option
    with another name (and a non-empty value) is shown as often as it occurs
    among the line's selected options: exactly once when it is selected
    once. *)
Theorem rendered_options_spec (line : CartLine) :
  let options := selectedOptions (merchandise line) in
  let rows := renderedOptions (CartLineItem useVariantUrl line) in
  (forall o, so_name o = "Title" -> renderOption o = Null)
  /\ (forall v, occurrences ("Title", v) rows = 0%nat)
  /\ (forall o, so_name o <> "Title" -> so_value o <> EmptyString ->
        occurrences (shown o) rows = occurrences o options)
  /\ (forall o, so_name o <> "Title" -> so_value o <> EmptyString ->
        occurrences o options = 1%nat -> occurrences (shown o) rows = 1%nat).
Proof.
  intros options rows. subst rows. rewrite renderedOptions_CartLineItem.
  fold options. split; [|split; [|split]].
  - intros o Ho. unfold renderOption. now rewrite Ho.
  - intros v. unfold occurrences.
    induction options as [|o opts IH]; [reflexivity|].
    rewrite (filter_cons (fun o => so_name o <> "Title")).
    destruct (decide (so_name o <> "Title")) as [Hne|]; [|exact IH].
    cbn [map]. rewrite (filter_cons (fun y => y = ("Title", v))).
    destruct (decide (shown o = ("Title", v))) as [Hs|]; [|exact IH].
    exfalso. apply Hne. unfold shown in Hs. congruence.
  - intros o Hne _. now apply occurrences_shown.
  - intros o Hne _ Hone. now rewrite occurrences_shown.
Qed.

End CartLineItemFacts.

Lemma rendered_options_spec_witness :
  occurrences ("Title", "Default Title")
    (renderedOptions (CartLineItem (fun h _ => h) sample_line_with_options)) = 0%nat
  /\ occurrences (shown {| so_name := "Color"; so_value := "Azul" |})
       (renderedOptions (CartLineItem (fun h _ => h) sample_line_with_options)) = 1%nat.
Proof.
  destruct (rendered_options_spec (fun h _ => h) sample_line_with_options)
    as (_ & Htitle & _ & Honce).
  split.
  - exact (Htitle "Default Title").
  - apply (Honce {| so_name := "Color"; so_value := "Azul" |}).
    + discriminate.
    + discriminate.
    + reflexivity.
Defined.

Example rendered_options_sample :
  renderedOptions (CartLineItem (fun h _ => h) sample_line_with_options)
  = [ ("Color", "Azul"); ("Talla", "M") ].
Proof. reflexivity. Qed.

(** ** The product route *)

Lemma truthy_string_true (s : string) : truthy_string s = true <-> s <> EmptyString.
Proof.
  unfold truthy_string. destruct (String.eqb_spec s EmptyString); simpl; split;
    congruence.
Qed.

Lemma truthy_string_false (s : string) : truthy_string s = false <-> s = EmptyString.
Proof.
  unfold truthy_string. destruct (String.eqb_spec s EmptyString); simpl; split;
    congruence.
Qed.

(** [Promise.all] of one request settles as the request does. *)
Lemma settle_All_singleton (doc : QueryDoc) (vars : option QueryVariables)
    (answer : settled) :
  fst (settle (All [ Query doc vars answer ]))
  = match answer with
    | Fulfilled v => Fulfilled (VArray [ v ])
    | Rejected e => Rejected e
    end.
Proof. destruct answer; reflexivity. Qed.

(** The deferred phase: one request leaves, nothing is thrown. *)
Lemma loadDeferredData_run (args : LoaderFunctionArgs) (tr : list event) :
  loadDeferredData args tr
  = (Ok {[ "recommendedProducts" := FPromise (recommendedPromise args) ]},
     tr ++ [ Issued RECOMMENDED_PRODUCTS_QUERY None ]).
Proof. reflexivity. Qed.

Lemma settle_recommendedPromise (args : LoaderFunctionArgs) :
  settle (recommendedPromise args)
  = match respond (storefront args) RECOMMENDED_PRODUCTS_QUERY None with
    | Fulfilled v => (Fulfilled v, [])
    | Rejected e => (Fulfilled VNull, [ e ])
    end.
Proof.
  unfold recommendedPromise. simpl.
  destruct (respond (storefront args) RECOMMENDED_PRODUCTS_QUERY None);
    reflexivity.
Qed.

Section LoaderFacts.

Variable getSelectedProductOptions : Request -> list SelectedOption.

Local Abbreviation loadCriticalData' := (loadCriticalData getSelectedProductOptions).
Local Abbreviation loader' := (loader getSelectedProductOptions).
Local Abbreviation options args := (getSelectedProductOptions (request args)).

Lemma loadCriticalData_absent (args : LoaderFunctionArgs) (tr : list event) :
  handle_absent args ->
  loadCriticalData' args tr
  = (Throw (ErrorObj "Expected product handle to be defined"), tr).
Proof.
  unfold loadCriticalData.
  intros [H | H]; rewrite H; reflexivity.
Qed.

(** With a handle, the critical phase issues its request, awaits it, and
    ends as the answer decides; the trace grows by the same two events
    whatever the answer. *)
Lemma loadCriticalData_trace (args : LoaderFunctionArgs) (handle : string)
    (tr : list event) :
  params_handle args = Some handle -> handle <> EmptyString ->
  snd (loadCriticalData' args tr)
  = tr ++ [ Issued PRODUCT_QUERY (productVariables (options args) handle);
            Awaited (All [ productPromise args (options args) handle ]) ].
Proof.
  intros Hh Hne. apply truthy_string_true in Hne.
  unfold loadCriticalData. rewrite Hh, Hne.
  unfold bind, query, await, emit, ret, throw, bind.
  rewrite settle_All_singleton. fold (productVariables (options args) handle).
  unfold productPromise.
  destruct (respond (storefront args) PRODUCT_QUERY _) as [v|e]; simpl.
  - destruct v as [|product shop|?|?]; simpl; try (now rewrite <- app_assoc).
    destruct product as [p|]; simpl; [|now rewrite <- app_assoc].
    destruct (truthy_string (p_id p)); simpl; now rewrite <- app_assoc.
  - now rewrite <- app_assoc.
Qed.

Lemma loadCriticalData_rejected (args : LoaderFunctionArgs) (handle : string)
    (tr : list event) (e : thrown) :
  params_handle args = Some handle -> handle <> EmptyString ->
  respond (storefront args) PRODUCT_QUERY (productVariables (options args) handle)
  = Rejected e ->
  fst (loadCriticalData' args tr) = Throw e.
Proof.
  intros Hh Hne Ha. apply truthy_string_true in Hne.
  unfold loadCriticalData. rewrite Hh, Hne.
  unfold bind, query, await, emit, ret, throw, bind.
  rewrite settle_All_singleton. fold (productVariables (options args) handle).
  now rewrite Ha.
Qed.

Lemma loadCriticalData_unresolved (args : LoaderFunctionArgs) (handle : string)
    (tr : list event) (product : option Product) (shop : Shop) :
  params_handle args = Some handle -> handle <> EmptyString ->
  respond (storefront args) PRODUCT_QUERY (productVariables (options args) handle)
  = Fulfilled (VProductQuery product shop) ->
  unresolved product ->
  fst (loadCriticalData' args tr) = Throw (ResponseObj 404).
Proof.
  intros Hh Hne Ha Hu. apply truthy_string_true in Hne.
  unfold loadCriticalData. rewrite Hh, Hne.
  unfold bind, query, await, emit, ret, throw, bind.
  rewrite settle_All_singleton. fold (productVariables (options args) handle).
  rewrite Ha. simpl.
  destruct Hu as [-> | (p & -> & Hid)]; [reflexivity|].
  apply truthy_string_false in Hid. now rewrite Hid.
Qed.

Lemma loadCriticalData_resolved (args : LoaderFunctionArgs) (handle : string)
    (tr : list event) (p : Product) (shop : Shop) :
  params_handle args = Some handle -> handle <> EmptyString ->
  respond (storefront args) PRODUCT_QUERY (productVariables (options args) handle)
  = Fulfilled (VProductQuery (Some p) shop) ->
  p_id p <> EmptyString ->
  fst (loadCriticalData' args tr)
  = Ok (<[ "product" := FProduct p ]>
        {[ "storeDomain" := FString (primaryDomain_url shop) ]}).
Proof.
  intros Hh Hne Ha Hid. apply truthy_string_true in Hne, Hid.
  unfold loadCriticalData. rewrite Hh, Hne.
  unfold bind, query, await, emit, ret, throw, bind.
  rewrite settle_All_singleton. fold (productVariables (options args) handle).
  rewrite Ha. simpl. now rewrite Hid.
Qed.

(** The outcome of the critical phase does not depend on what was traced
    before it. *)
Lemma loadCriticalData_fst (args : LoaderFunctionArgs) (tr tr' : list event) :
  fst (loadCriticalData' args tr) = fst (loadCriticalData' args tr').
Proof.
  unfold loadCriticalData.
  destruct (params_handle args) as [handle|]; [|reflexivity].
  destruct (truthy_string handle); [|reflexivity].
  unfold bind, query, await, emit, ret, throw, bind.
  rewrite settle_All_singleton.
  destruct (respond (storefront args) PRODUCT_QUERY _) as [v|e]; simpl;
    [|reflexivity].
  destruct v as [|product shop|?|?]; simpl; try reflexivity.
  destruct product as [p|]; simpl; [|reflexivity].
  destruct (truthy_string (p_id p)); reflexivity.
Qed.

(** The loader: the deferred request first, then the critical phase, then
    the merge of the two objects. *)
Lemma loader_run (args : LoaderFunctionArgs) :
  run (loader' args)
  = match loadCriticalData' args [ Issued RECOMMENDED_PRODUCTS_QUERY None ] with
    | (Ok criticalData, tr) =>
        (Ok (criticalData
             ∪ {[ "recommendedProducts" := FPromise (recommendedPromise args) ]}),
         tr)
    | (Throw e, tr) => (Throw e, tr)
    end.
Proof.
  unfold run, loader, bind at 1. rewrite loadDeferredData_run.
  unfold bind, ret, defer. simpl app.
  destruct (loadCriticalData' args _) as [[c|e] tr]; reflexivity.
Qed.

(** The critical phase never writes the [recommendedProducts] key, so the
    spread of the two objects keeps the deferred promise. *)
Lemma loader_payload_recommended (args : LoaderFunctionArgs)
    (payload : gmap string field) :
  fst (run (loader' args)) = Ok payload ->
  payload !! "recommendedProducts" = Some (FPromise (recommendedPromise args)).
Proof.
  rewrite loader_run.
  destruct (loadCriticalData' args _) as [[c|e'] tr] eqn:Hc; simpl;
    [|discriminate].
  intros [= <-].
  assert (Hnone : c !! "recommendedProducts" = None).
  { pose proof (f_equal fst Hc) as Hf. simpl in Hf. revert Hf.
    unfold loadCriticalData.
    destruct (params_handle args) as [handle|]; [|discriminate].
    destruct (truthy_string handle); [|discriminate].
    unfold bind, query, await, emit, ret, throw, bind.
    rewrite settle_All_singleton.
    destruct (respond (storefront args) PRODUCT_QUERY _) as [v|e]; simpl;
      [|discriminate].
    destruct v as [|product shop|?|?]; simpl; try discriminate.
    destruct product as [p|]; simpl; [|discriminate].
    destruct (truthy_string (p_id p)); simpl; [|discriminate].
    intros [= <-]. reflexivity. }
  rewrite lookup_union_r by exact Hnone.
  apply lookup_singleton_eq.
Qed.

(** C4. In the critical phase an absent handle throws the generic error and
    an unresolved product throws a 404 response.  Either way the critical
    phase and the loader that awaits it end by throwing that very value:
    nothing recovers it and no payload is returned. *)
Theorem critical_failures_spec (args : LoaderFunctionArgs) :
  (handle_absent args ->
     fst (run (loadCriticalData' args))
     = Throw (ErrorObj "Expected product handle to be defined")
     /\ fst (run (loader' args))
        = Throw (ErrorObj "Expected product handle to be defined"))
  /\ (forall handle product shop,
        params_handle args = Some handle -> handle <> EmptyString ->
        respond (storefront args) PRODUCT_QUERY
                (productVariables (options args) handle)
        = Fulfilled (VProductQuery product shop) ->
        unresolved product ->
        fst (run (loadCriticalData' args)) = Throw (ResponseObj 404)
        /\ fst (run (loader' args)) = Throw (ResponseObj 404)).
Proof.
  split.
  - intros Ha. rewrite loader_run. unfold run.
    rewrite !(loadCriticalData_absent args _ Ha). split; reflexivity.
  - intros handle product shop Hh Hne Hr Hu.
    pose proof (fun tr => loadCriticalData_unresolved args handle tr product
                            shop Hh Hne Hr Hu) as Hc.
    split; [apply Hc|].
    rewrite loader_run.
    specialize (Hc [ Issued RECOMMENDED_PRODUCTS_QUERY None ]).
    destruct (loadCriticalData' args _) as [[c|e] tr]; simpl in Hc |- *;
      congruence.
Qed.

(** C5. The deferred phase never throws; the promise it stores under
    [recommendedProducts] is fulfilled whatever the storefront answers (a
    rejection is logged once and replaced by [null]); the loader fails only
    as the critical phase does, and every payload it returns holds that
    promise under [recommendedProducts]. *)
Theorem deferred_never_fails_spec (args : LoaderFunctionArgs) :
  (forall tr, fst (loadDeferredData args tr)
              = Ok {[ "recommendedProducts" := FPromise (recommendedPromise args) ]})
  /\ (forall e,
        respond (storefront args) RECOMMENDED_PRODUCTS_QUERY None = Rejected e ->
        settle (recommendedPromise args) = (Fulfilled VNull, [ e ]))
  /\ (forall v,
        respond (storefront args) RECOMMENDED_PRODUCTS_QUERY None = Fulfilled v ->
        settle (recommendedPromise args) = (Fulfilled v, []))
  /\ (forall e, fst (run (loader' args)) = Throw e ->
                fst (run (loadCriticalData' args)) = Throw e)
  /\ (forall payload, fst (run (loader' args)) = Ok payload ->
        payload !! "recommendedProducts"
        = Some (FPromise (recommendedPromise args))).
Proof.
  split; [intros tr; now rewrite loadDeferredData_run|].
  split; [intros e He; now rewrite settle_recommendedPromise, He|].
  split; [intros v Hv; now rewrite settle_recommendedPromise, Hv|].
  split.
  - intros e. rewrite loader_run. unfold run.
    rewrite (loadCriticalData_fst args [] [ Issued RECOMMENDED_PRODUCTS_QUERY None ]).
    destruct (loadCriticalData' args _) as [[c|e'] tr]; simpl; congruence.
  - apply loader_payload_recommended.
Qed.

(** C8. The loader calls the storefront for the recommended products
    first, then issues the critical request and awaits it, and awaits
    nothing else: the trace of a request with a handle is exactly these three
    events, in this order, and a payload it returns holds the deferred
    promise itself, never awaited by the loader. *)
Theorem loader_order_spec (args : LoaderFunctionArgs) (handle : string) :
  params_handle args = Some handle -> handle <> EmptyString ->
  let critical := All [ productPromise args (options args) handle ] in
  snd (run (loader' args))
  = [ Issued RECOMMENDED_PRODUCTS_QUERY None;
      Issued PRODUCT_QUERY (productVariables (options args) handle);
      Awaited critical ]
  /\ (Awaited (recommendedPromise args) ∉ snd (run (loader' args)))
  /\ (forall payload, fst (run (loader' args)) = Ok payload ->
        payload !! "recommendedProducts"
        = Some (FPromise (recommendedPromise args))).
Proof.
  intros Hh Hne critical.
  assert (Htr : snd (run (loader' args))
                = [ Issued RECOMMENDED_PRODUCTS_QUERY None;
                    Issued PRODUCT_QUERY (productVariables (options args) handle);
                    Awaited critical ]).
  { rewrite loader_run.
    pose proof (loadCriticalData_trace args handle
                  [ Issued RECOMMENDED_PRODUCTS_QUERY None ] Hh Hne) as Ht.
    destruct (loadCriticalData' args _) as [[c|e] tr]; simpl in Ht |- *;
      exact Ht. }
  split; [exact Htr|]. split.
  - rewrite Htr. intros Hin.
    repeat (apply elem_of_cons in Hin; destruct Hin as [Hin|Hin];
            [discriminate Hin|]).
    now apply elem_of_nil in Hin.
  - apply loader_payload_recommended.
Qed.

End LoaderFacts.

(** Runs of the loader on sample requests. *)
Example loader_found :
  snd (run (loader (fun _ => []) (sample_args (Some "taza") found network_down)))
  = [ Issued RECOMMENDED_PRODUCTS_QUERY None;
      Issued PRODUCT_QUERY (productVariables [] "taza");
      Awaited (All [ Query PRODUCT_QUERY (productVariables [] "taza") found ]) ].
Proof. reflexivity. Qed.

Example loader_no_handle :
  run (loader (fun _ => []) (sample_args None found network_down))
  = (Throw (ErrorObj "Expected product handle to be defined"),
     [ Issued RECOMMENDED_PRODUCTS_QUERY None ]).
Proof. reflexivity. Qed.

Lemma critical_failures_spec_witness :
  fst (run (loader (fun _ => []) (sample_args None found network_down)))
  = Throw (ErrorObj "Expected product handle to be defined")
  /\ fst (run (loader (fun _ => [])
                 (sample_args (Some "taza") not_found network_down)))
     = Throw (ResponseObj 404).
Proof.
  split.
  - apply (proj1 (critical_failures_spec (fun _ => [])
                    (sample_args None found network_down))).
    left. reflexivity.
  - apply (proj2 (critical_failures_spec (fun _ => [])
                    (sample_args (Some "taza") not_found network_down))
             "taza" None sample_shop).
    + reflexivity.
    + discriminate.
    + reflexivity.
    + left. reflexivity.
Defined.

Lemma deferred_never_fails_spec_witness :
  settle (recommendedPromise (sample_args (Some "taza") found network_down))
  = (Fulfilled VNull, [ ErrorObj "fetch failed" ])
  /\ exists payload,
       fst (run (loader (fun _ => [])
                   (sample_args (Some "taza") found network_down)))
       = Ok payload
       /\ payload !! "recommendedProducts"
          = Some (FPromise (recommendedPromise
                              (sample_args (Some "taza") found network_down))).
Proof.
  destruct (deferred_never_fails_spec (fun _ => [])
              (sample_args (Some "taza") found network_down))
    as (_ & Hrej & _ & _ & Hpayload).
  split.
  - apply Hrej. reflexivity.
  - eexists. split; [reflexivity|]. apply Hpayload. reflexivity.
Defined.

Lemma loader_order_spec_witness :
  snd (run (loader (fun _ => []) (sample_args (Some "taza") found network_down)))
  = [ Issued RECOMMENDED_PRODUCTS_QUERY None;
      Issued PRODUCT_QUERY (productVariables [] "taza");
      Awaited (All [ productPromise (sample_args (Some "taza") found network_down)
                                    [] "taza" ]) ].
Proof.
  apply (loader_order_spec (fun _ => [])
           (sample_args (Some "taza") found network_down) "taza").
  - reflexivity.
  - discriminate.
Defined.

(* ===================================================================== *)
(** * Further properties of the cart line *)
(* ===================================================================== *)

Lemma controls_renderOption (o : SelectedOption) : controls (renderOption o) = [].
Proof.
  unfold renderOption.
  destruct (negb (String.eqb (so_name o) "Title")); reflexivity.
Qed.

Lemma controls_map_renderOption (opts : list SelectedOption) :
  flat_map controls (map renderOption opts) = [].
Proof.
  induction opts as [|o opts IH]; [reflexivity|].
  cbn [map flat_map]. now rewrite IH, controls_renderOption.
Qed.

Lemma controls_CartLineQuantity_undefined (line : CartLine)
    (qa : option JS.number) :
  quantity line = None -> controls (CartLineQuantity (Some line) qa) = [].
Proof. intros H. unfold CartLineQuantity. now rewrite H. Qed.

Lemma controls_CartLineItem_eq (useVariantUrl : string -> list SelectedOption -> string)
    (line : CartLine) :
  controls (CartLineItem useVariantUrl line)
  = controls (CartLineQuantity (Some line) (quantityAvailable (merchandise line))).
Proof.
  unfold CartLineItem. cbn [controls flat_map].
  rewrite flat_map_app, controls_map_renderOption. cbn [flat_map app].
  rewrite !app_nil_r.
  destruct (image (merchandise line)); reflexivity.
Qed.

(** The controls of an item, by cases on its quantity. *)
Lemma controls_CartLineItem_cases (useVariantUrl : string -> list SelectedOption -> string)
    (line : CartLine) :
  (quantity line = None /\ controls (CartLineItem useVariantUrl line) = [])
  \/ (exists n, quantity line = Some n
        /\ controls (CartLineItem useVariantUrl line)
           = [ decreaseOf line n;
               increaseOf line n (quantityAvailable (merchandise line));
               removeOf line ]).
Proof.
  rewrite controls_CartLineItem_eq.
  destruct (quantity line) as [n|] eqn:Hq.
  - right. exists n. split; [reflexivity|].
    now apply controls_CartLineQuantity.
  - left. split; [reflexivity|].
    now apply controls_CartLineQuantity_undefined.
Qed.

Section CartLineItemControls.

Variable useVariantUrl : string -> list SelectedOption -> string.

(** X1. The only controls of a rendered cart line are those of its quantity
    cluster, fed with the stock of the line's own merchandise: the decrease,
    increase and removal control in this order when the line has a quantity,
    none when it has not.  The image, the link, the price and the option
    rows add no button. *)
Theorem item_controls_spec (line : CartLine) :
  controls (CartLineItem useVariantUrl line)
  = controls (CartLineQuantity (Some line) (quantityAvailable (merchandise line)))
  /\ (quantity line = None -> controls (CartLineItem useVariantUrl line) = [])
  /\ (forall n, quantity line = Some n ->
        controls (CartLineItem useVariantUrl line)
        = [ decreaseOf line n;
            increaseOf line n (quantityAvailable (merchandise line));
            removeOf line ]).
Proof.
  split; [apply controls_CartLineItem_eq|].
  rewrite controls_CartLineItem_eq. split.
  - apply controls_CartLineQuantity_undefined.
  - intros n Hn. now apply controls_CartLineQuantity.
Qed.

(** X2. Whatever control of a cart line is used, its form posts to the cart
    route and names this line and no other: the update forms carry one line
    input with this line's identifier, the remove form this identifier
    alone. *)
Theorem item_controls_target_own_line (line : CartLine) (c : Control) :
  c ∈ controls (CartLineItem useVariantUrl line) ->
  ctl_route c = "/cart" /\ targets (ctl_inputs c) = [ id line ].
Proof.
  destruct (controls_CartLineItem_cases useVariantUrl line)
    as [[_ ->] | (n & _ & ->)].
  - intros H. now apply elem_of_nil in H.
  - intros H.
    repeat (apply elem_of_cons in H; destruct H as [-> | H];
            [split; reflexivity|]).
    now apply elem_of_nil in H.
Qed.

(** X3. While a mutation of the line is in flight and the stock is absent
    or zero, nothing can be submitted from the line: every control it renders
    is disabled, so activating any of them posts no request. *)
Theorem optimistic_item_submits_nothing (line : CartLine) (c : Control) :
  optimistic line ->
  quantityAvailable (merchandise line) = None
  \/ quantityAvailable (merchandise line) = Some (JS.Int 0) ->
  c ∈ controls (CartLineItem useVariantUrl line) ->
  disabled c = true /\ activate c = None.
Proof.
  unfold optimistic. intros Ho Hqa.
  assert (Hd : c ∈ controls (CartLineItem useVariantUrl line) -> disabled c = true).
  { destruct (controls_CartLineItem_cases useVariantUrl line)
      as [[_ ->] | (n & _ & ->)].
    - intros H. now apply elem_of_nil in H.
    - intros H.
      apply elem_of_cons in H. destruct H as [-> | H].
      { unfold disabled, decreaseOf, isDecreaseDisabled; simpl.
        rewrite Ho. apply orb_true_r. }
      apply elem_of_cons in H. destruct H as [-> | H].
      { unfold disabled, increaseOf, isIncreaseDisabled; simpl.
        destruct Hqa as [-> | ->]; simpl; now rewrite Ho. }
      apply elem_of_cons in H. destruct H as [-> | H].
      { unfold disabled, removeOf; simpl. now rewrite Ho. }
      now apply elem_of_nil in H. }
  intros Hin. specialize (Hd Hin). split; [exact Hd|].
  unfold activate. now rewrite Hd.
Qed.

(** X4. The option rows of a cart line are its selected options without
    those named "Title", in the order of the list and with the value each one
    has, an empty value included. *)
Theorem option_rows_in_order (line : CartLine) :
  renderedOptions (CartLineItem useVariantUrl line)
  = map shown (filter (fun o => so_name o <> "Title")
                      (selectedOptions (merchandise line)))
  /\ (length (renderedOptions (CartLineItem useVariantUrl line))
      <= length (selectedOptions (merchandise line)))%nat.
Proof.
  rewrite renderedOptions_CartLineItem. split; [reflexivity|].
  rewrite length_map. apply length_filter.
Qed.

End CartLineItemControls.

Lemma item_controls_spec_witness :
  controls (CartLineItem (fun h _ => h) sample_line_without_quantity) = []
  /\ controls (CartLineItem (fun h _ => h) (sample_line 3 (Some 5) None))
     = [ decreaseOf (sample_line 3 (Some 5) None) (JS.Int 3);
         increaseOf (sample_line 3 (Some 5) None) (JS.Int 3) (Some (JS.Int 5));
         removeOf (sample_line 3 (Some 5) None) ].
Proof.
  split.
  - apply (proj1 (proj2 (item_controls_spec (fun h _ => h)
                           sample_line_without_quantity))).
    reflexivity.
  - apply (proj2 (proj2 (item_controls_spec (fun h _ => h)
                           (sample_line 3 (Some 5) None))) (JS.Int 3)).
    reflexivity.
Defined.

Lemma item_controls_target_own_line_witness :
  ctl_route (removeOf (sample_line 3 (Some 5) None)) = "/cart"
  /\ targets (ctl_inputs (removeOf (sample_line 3 (Some 5) None)))
     = [ id (sample_line 3 (Some 5) None) ].
Proof.
  apply (item_controls_target_own_line (fun h _ => h) (sample_line 3 (Some 5) None)).
  vm_compute. right. right. left.
Defined.

Lemma optimistic_item_submits_nothing_witness :
  disabled (increaseOf (sample_line 2 None (Some true)) (JS.Int 2) None) = true
  /\ activate (increaseOf (sample_line 2 None (Some true)) (JS.Int 2) None) = None.
Proof.
  apply (optimistic_item_submits_nothing (fun h _ => h)
           (sample_line 2 None (Some true))).
  - reflexivity.
  - left. reflexivity.
  - vm_compute. right. left.
Defined.

(** ** Quantities that can be posted *)

(** X5. Whatever the decrease control of a line of quantity [q] posts is an
    update of this line to [q - 1], and [q - 1] is at least 1: the control
    cannot bring a line to zero, only the removal control takes a line out. *)
Theorem decrease_posts_at_least_one (line : CartLine) (q : Z)
    (qa : option JS.number) (c : Control) (req : CartMutationRequest) :
  quantity line = Some (JS.Int q) ->
  decrease_control (CartLineQuantity (Some line) qa) = Some c ->
  activate c = Some req ->
  req = update_request line (q - 1) /\ 1 <= q - 1.
Proof.
  intros Hq Hc Hact.
  rewrite (decrease_control_CartLineQuantity line (JS.Int q) qa Hq) in Hc.
  injection Hc as <-.
  unfold activate, disabled in Hact. simpl in Hact.
  unfold isDecreaseDisabled in Hact. simpl in Hact.
  destruct (Z.leb_spec q 1) as [Hle|Hgt]; simpl in Hact; [discriminate|].
  destruct (JS.bangbang (isOptimistic line)); [discriminate|].
  injection Hact as <-. rewrite prevQuantity_Int.
  unfold update_request. rewrite Z.max_r by lia. split; [reflexivity | lia].
Qed.

Lemma decrease_posts_at_least_one_witness :
  update_request (sample_line 3 (Some 5) None) (Z.max 0 (3 - 1))
  = update_request (sample_line 3 (Some 5) None) (3 - 1)
  /\ 1 <= 3 - 1.
Proof.
  apply (decrease_posts_at_least_one (sample_line 3 (Some 5) None) 3
           (Some (JS.Int 5))
           (decreaseOf (sample_line 3 (Some 5) None) (JS.Int 3))).
  - reflexivity.
  - reflexivity.
  - reflexivity.
Defined.

(** X6. With a known, non-zero stock [a], whatever the increase control of a
    line of quantity [q] posts is an update of this line to [q + 1], and
    [q + 1] does not exceed [a]: the control cannot ask for more than is
    available. *)
Theorem increase_posts_within_stock (line : CartLine) (q a : Z)
    (c : Control) (req : CartMutationRequest) :
  quantity line = Some (JS.Int q) ->
  a <> 0 ->
  increase_control (CartLineQuantity (Some line) (Some (JS.Int a))) = Some c ->
  activate c = Some req ->
  req = update_request line (q + 1) /\ q + 1 <= a.
Proof.
  intros Hq Ha Hc Hact.
  rewrite (increase_control_CartLineQuantity line (JS.Int q) _ Hq) in Hc.
  injection Hc as <-.
  unfold activate, disabled in Hact. simpl in Hact.
  unfold isIncreaseDisabled in Hact. simpl in Hact.
  destruct (Z.eqb_spec a 0) as [|_]; [contradiction|]. simpl in Hact.
  rewrite nextQuantity_Int in Hact. simpl in Hact.
  destruct (Z.gtb_spec (q + 1) a) as [Hgt|Hle]; [discriminate|].
  injection Hact as <-.
  unfold update_request. split; [reflexivity | exact Hle].
Qed.

Lemma increase_posts_within_stock_witness :
  update_request (sample_line 3 (Some 5) None) (3 + 1)
  = update_request (sample_line 3 (Some 5) None) (3 + 1)
  /\ 3 + 1 <= 5.
Proof.
  apply (increase_posts_within_stock (sample_line 3 (Some 5) None) 3 5
           (increaseOf (sample_line 3 (Some 5) None) (JS.Int 3) (Some (JS.Int 5)))).
  - reflexivity.
  - discriminate.
  - reflexivity.
  - reflexivity.
Defined.

(** X7. The two candidates undo each other: decreasing the increased
    quantity gives the quantity back for every [q >= 0], and increasing the
    decreased quantity gives it back for every [q >= 1].  Below that the
    decrease candidate is clamped at 0 and the round trip is lost. *)
Theorem candidates_round_trip (q : Z) :
  (0 <= q -> prevQuantity (nextQuantity (JS.Int q)) = JS.Int q)
  /\ (1 <= q -> nextQuantity (prevQuantity (JS.Int q)) = JS.Int q)
  /\ (q <= 1 -> prevQuantity (JS.Int q) = JS.Int 0).
Proof.
  rewrite nextQuantity_Int, !prevQuantity_Int, nextQuantity_Int.
  repeat split; intros H; f_equal; lia.
Qed.

Lemma candidates_round_trip_witness :
  prevQuantity (nextQuantity (JS.Int 4)) = JS.Int 4
  /\ nextQuantity (prevQuantity (JS.Int 4)) = JS.Int 4
  /\ prevQuantity (JS.Int 0) = JS.Int 0.
Proof.
  split; [|split].
  - apply (proj1 (candidates_round_trip 4)). lia.
  - apply (proj1 (proj2 (candidates_round_trip 4))). lia.
  - apply (proj2 (proj2 (candidates_round_trip 0))). lia.
Defined.

(** X8. Once the quantity has reached a non-zero stock [a] (or the stock is
    negative), the increase control is disabled whether or not the line is
    optimistic, and activating it posts nothing. *)
Theorem increase_disabled_at_stock (line : CartLine) (q a : Z) :
  quantity line = Some (JS.Int q) ->
  a <> 0 -> a <= q ->
  exists c,
    increase_control (CartLineQuantity (Some line) (Some (JS.Int a))) = Some c
    /\ disabled c = true
    /\ activate c = None.
Proof.
  intros Hq Ha Hle. exists (increaseOf line (JS.Int q) (Some (JS.Int a))).
  split; [now apply increase_control_CartLineQuantity|].
  assert (Hd : disabled (increaseOf line (JS.Int q) (Some (JS.Int a))) = true).
  { unfold disabled, increaseOf, isIncreaseDisabled; simpl.
    destruct (Z.eqb_spec a 0) as [|_]; [contradiction|]. simpl.
    rewrite nextQuantity_Int. simpl. apply Z.gtb_gt. lia. }
  split; [exact Hd|]. unfold activate. now rewrite Hd.
Qed.

Lemma increase_disabled_at_stock_witness :
  exists c,
    increase_control
      (CartLineQuantity (Some (sample_line 1 (Some 1) None)) (Some (JS.Int 1)))
    = Some c
    /\ disabled c = true
    /\ activate c = None.
Proof.
  apply (increase_disabled_at_stock (sample_line 1 (Some 1) None) 1 1).
  - reflexivity.
  - discriminate.
  - lia.
Defined.

(** X9. On an optimistic line the decrease and the removal control are
    disabled for every quantity and every stock. *)
Theorem optimistic_decrease_remove_disabled (line : CartLine) (q : Z)
    (qa : option Z) :
  quantity line = Some (JS.Int q) ->
  optimistic line ->
  exists d r,
    decrease_control (CartLineQuantity (Some line) (JS.Int <$> qa)) = Some d
    /\ removal_control (CartLineQuantity (Some line) (JS.Int <$> qa)) = Some r
    /\ disabled d = true /\ activate d = None
    /\ disabled r = true /\ activate r = None.
Proof.
  unfold optimistic. intros Hq Ho.
  exists (decreaseOf line (JS.Int q)), (removeOf line).
  split; [now apply decrease_control_CartLineQuantity|].
  split; [now apply (removal_control_CartLineQuantity line (JS.Int q))|].
  unfold activate, disabled, decreaseOf, removeOf, isDecreaseDisabled; simpl.
  rewrite Ho; simpl. rewrite orb_true_r. repeat split.
Qed.

Lemma optimistic_decrease_remove_disabled_witness :
  exists d r,
    decrease_control
      (CartLineQuantity (Some (sample_line 2 (Some 5) (Some true)))
                        (JS.Int <$> Some 5)) = Some d
    /\ removal_control
         (CartLineQuantity (Some (sample_line 2 (Some 5) (Some true)))
                           (JS.Int <$> Some 5)) = Some r
    /\ disabled d = true /\ activate d = None
    /\ disabled r = true /\ activate r = None.
Proof.
  apply (optimistic_decrease_remove_disabled
           (sample_line 2 (Some 5) (Some true)) 2 (Some 5)).
  - reflexivity.
  - reflexivity.
Defined.

(** X10. A line that is not optimistic can always be removed: at every
    quantity and every stock its removal control is enabled and posts the
    removal of this line alone, also at quantity 1, where the decrease
    control is disabled. *)
Theorem settled_line_can_be_removed (line : CartLine) (n : JS.number)
    (qa : option JS.number) :
  quantity line = Some n ->
  JS.bangbang (isOptimistic line) = false ->
  exists r,
    removal_control (CartLineQuantity (Some line) qa) = Some r
    /\ activate r = Some (remove_request line)
    /\ (n = JS.Int 1 ->
        exists d, decrease_control (CartLineQuantity (Some line) qa) = Some d
                  /\ activate d = None).
Proof.
  intros Hq Ho. exists (removeOf line).
  split; [now apply (removal_control_CartLineQuantity line n)|].
  split.
  - unfold activate, disabled, removeOf; simpl. now rewrite Ho.
  - intros ->. exists (decreaseOf line (JS.Int 1)).
    split; [now apply decrease_control_CartLineQuantity|].
    reflexivity.
Qed.

Lemma settled_line_can_be_removed_witness :
  exists r,
    removal_control
      (CartLineQuantity (Some (sample_line 1 (Some 1) None)) (Some (JS.Int 1)))
    = Some r
    /\ activate r = Some (remove_request (sample_line 1 (Some 1) None))
    /\ (JS.Int 1 = JS.Int 1 ->
        exists d,
          decrease_control
            (CartLineQuantity (Some (sample_line 1 (Some 1) None)) (Some (JS.Int 1)))
          = Some d
          /\ activate d = None).
Proof.
  apply (settled_line_can_be_removed (sample_line 1 (Some 1) None) (JS.Int 1)).
  - reflexivity.
  - reflexivity.
Defined.

(* ===================================================================== *)
(** * Further properties of the product route *)
(* ===================================================================== *)

(** A handler that logs and returns [null] turns any promise into one that
    cannot be rejected. *)
Lemma settle_Catch_logAndNull (p : promise) :
  settle (Catch p logAndNull)
  = match settle p with
    | (Fulfilled v, out) => (Fulfilled v, out)
    | (Rejected e, out) => (Fulfilled VNull, out ++ [ e ])
    end.
Proof. cbn [settle]. destruct (settle p) as [[v|e] out]; reflexivity. Qed.

(** X11. Whatever promise the log-and-null handler of the deferred phase is
    attached to, the result is never rejected: it is fulfilled with the
    promise's own value, or with [null] after exactly one more console line
    carrying the rejection. *)
Theorem catch_logAndNull_never_rejects (p : promise) :
  (exists v, fst (settle (Catch p logAndNull)) = Fulfilled v)
  /\ (forall v, fst (settle p) = Fulfilled v ->
        settle (Catch p logAndNull) = (Fulfilled v, snd (settle p)))
  /\ (forall e, fst (settle p) = Rejected e ->
        settle (Catch p logAndNull) = (Fulfilled VNull, snd (settle p) ++ [ e ])).
Proof.
  rewrite settle_Catch_logAndNull.
  destruct (settle p) as [[v|e] out]; simpl.
  - split; [now exists v|]. split; [now intros ? [= <-] | discriminate].
  - split; [now exists VNull|]. split; [discriminate | now intros ? [= <-]].
Qed.

Lemma catch_logAndNull_never_rejects_witness :
  settle (Catch (All [ Query PRODUCT_QUERY None network_down ]) logAndNull)
  = (Fulfilled VNull, [ ErrorObj "fetch failed" ]).
Proof.
  apply (proj2 (proj2 (catch_logAndNull_never_rejects
                         (All [ Query PRODUCT_QUERY None network_down ])))).
  reflexivity.
Defined.

Section LoaderMore.

Variable getSelectedProductOptions : Request -> list SelectedOption.

Local Abbreviation loadCriticalData' := (loadCriticalData getSelectedProductOptions).
Local Abbreviation loader' := (loader getSelectedProductOptions).
Local Abbreviation options args := (getSelectedProductOptions (request args)).

(** What a successful critical phase tells about the request. *)
Lemma loadCriticalData_Ok_inv (args : LoaderFunctionArgs) (tr : list event)
    (c : gmap string field) :
  fst (loadCriticalData' args tr) = Ok c ->
  exists handle p shop,
    params_handle args = Some handle /\ handle <> EmptyString
    /\ respond (storefront args) PRODUCT_QUERY
               (productVariables (options args) handle)
       = Fulfilled (VProductQuery (Some p) shop)
    /\ p_id p <> EmptyString
    /\ c = <[ "product" := FProduct p ]>
           {[ "storeDomain" := FString (primaryDomain_url shop) ]}.
Proof.
  unfold loadCriticalData.
  destruct (params_handle args) as [handle|]; [|discriminate].
  destruct (truthy_string handle) eqn:Hh; [|discriminate].
  unfold bind, query, await, emit, ret, throw, bind.
  rewrite settle_All_singleton. fold (productVariables (options args) handle).
  destruct (respond (storefront args) PRODUCT_QUERY _) as [v|e] eqn:Hr; simpl;
    [|discriminate].
  destruct v as [|product shop|?|?]; simpl; try discriminate.
  destruct product as [p|]; simpl; [|discriminate].
  destruct (truthy_string (p_id p)) eqn:Hid; simpl; [|discriminate].
  intros [= <-]. exists handle, p, shop.
  apply truthy_string_true in Hh, Hid. repeat split; assumption.
Qed.

Lemma loader_Ok_inv (args : LoaderFunctionArgs) (payload : gmap string field) :
  fst (run (loader' args)) = Ok payload ->
  exists handle p shop,
    params_handle args = Some handle /\ handle <> EmptyString
    /\ respond (storefront args) PRODUCT_QUERY
               (productVariables (options args) handle)
       = Fulfilled (VProductQuery (Some p) shop)
    /\ p_id p <> EmptyString
    /\ payload = pagePayload args p shop.
Proof.
  rewrite loader_run.
  destruct (loadCriticalData' args _) as [[c|e] tr] eqn:Hc; simpl;
    [|discriminate].
  intros [= <-].
  pose proof (loadCriticalData_Ok_inv args _ c (f_equal fst Hc))
    as (handle & p & shop & H1 & H2 & H3 & H4 & ->).
  exists handle, p, shop. repeat split; assumption.
Qed.

Lemma loader_Ok_intro (args : LoaderFunctionArgs) (handle : string)
    (p : Product) (shop : Shop) :
  params_handle args = Some handle -> handle <> EmptyString ->
  respond (storefront args) PRODUCT_QUERY (productVariables (options args) handle)
  = Fulfilled (VProductQuery (Some p) shop) ->
  p_id p <> EmptyString ->
  fst (run (loader' args)) = Ok (pagePayload args p shop).
Proof.
  intros Hh Hne Hr Hid. rewrite loader_run.
  pose proof (loadCriticalData_resolved getSelectedProductOptions args handle
                [ Issued RECOMMENDED_PRODUCTS_QUERY None ] p shop Hh Hne Hr Hid)
    as Hc.
  destruct (loadCriticalData' args _) as [[c|e] tr]; simpl in Hc |- *;
    [|discriminate].
  now injection Hc as ->.
Qed.

Lemma pagePayload_lookup (args : LoaderFunctionArgs) (p : Product) (shop : Shop) :
  pagePayload args p shop !! "product" = Some (FProduct p)
  /\ pagePayload args p shop !! "storeDomain"
     = Some (FString (primaryDomain_url shop))
  /\ pagePayload args p shop !! "recommendedProducts"
     = Some (FPromise (recommendedPromise args)).
Proof.
  unfold pagePayload. split; [|split].
  - apply lookup_union_Some_l, lookup_insert_eq.
  - apply lookup_union_Some_l.
    rewrite lookup_insert_ne by discriminate. apply lookup_singleton_eq.
  - rewrite lookup_union_r; [apply lookup_singleton_eq|].
    rewrite lookup_insert_ne by discriminate.
    apply lookup_singleton_ne. discriminate.
Qed.

(** X12. The loader returns a payload exactly when the request has a
    non-empty handle and the storefront answers the product query with a
    product whose id is non-empty; the payload then has the three keys
    [product], [storeDomain] and [recommendedProducts] and no other, holding
    the storefront's product, the shop's primary domain and the deferred
    promise. *)
Theorem loader_success_iff (args : LoaderFunctionArgs)
    (payload : gmap string field) :
  (fst (run (loader' args)) = Ok payload
   <-> exists handle p shop,
         params_handle args = Some handle /\ handle <> EmptyString
         /\ respond (storefront args) PRODUCT_QUERY
                    (productVariables (options args) handle)
            = Fulfilled (VProductQuery (Some p) shop)
         /\ p_id p <> EmptyString
         /\ payload = pagePayload args p shop)
  /\ (forall p shop,
        dom (pagePayload args p shop)
        = ({[ "product"; "storeDomain"; "recommendedProducts" ]} : gset string)
        /\ pagePayload args p shop !! "product" = Some (FProduct p)
        /\ pagePayload args p shop !! "storeDomain"
           = Some (FString (primaryDomain_url shop))
        /\ pagePayload args p shop !! "recommendedProducts"
           = Some (FPromise (recommendedPromise args))).
Proof.
  split.
  - split; [apply loader_Ok_inv|].
    intros (handle & p & shop & Hh & Hne & Hr & Hid & ->).
    now apply (loader_Ok_intro args handle).
  - intros p shop. split; [|apply pagePayload_lookup].
    unfold pagePayload.
    rewrite dom_union_L, dom_insert_L, !dom_singleton_L. set_solver.
Qed.

(** X13. When the storefront rejects the product query, the loader throws
    that very rejection (it is not turned into a 404), after the three events
    of a normal load. *)
Theorem loader_rejection_propagates (args : LoaderFunctionArgs)
    (handle : string) (e : thrown) :
  params_handle args = Some handle -> handle <> EmptyString ->
  respond (storefront args) PRODUCT_QUERY (productVariables (options args) handle)
  = Rejected e ->
  run (loader' args)
  = (Throw e,
     [ Issued RECOMMENDED_PRODUCTS_QUERY None;
       Issued PRODUCT_QUERY (productVariables (options args) handle);
       Awaited (All [ productPromise args (options args) handle ]) ]).
Proof.
  intros Hh Hne Hr. rewrite loader_run.
  pose proof (loadCriticalData_rejected getSelectedProductOptions args handle
                [ Issued RECOMMENDED_PRODUCTS_QUERY None ] e Hh Hne Hr) as Hf.
  pose proof (loadCriticalData_trace getSelectedProductOptions args handle
                [ Issued RECOMMENDED_PRODUCTS_QUERY None ] Hh Hne) as Ht.
  destruct (loadCriticalData' args _) as [[c|e'] tr]; simpl in Hf, Ht |- *;
    [discriminate|].
  injection Hf as ->. now rewrite Ht.
Qed.

(** X14. Without a handle the loader has already asked the storefront for
    the recommended products when it fails, and it never issues the product
    query: its whole trace is that one request. *)
Theorem loader_without_handle (args : LoaderFunctionArgs) :
  handle_absent args ->
  run (loader' args)
  = (Throw (ErrorObj "Expected product handle to be defined"),
     [ Issued RECOMMENDED_PRODUCTS_QUERY None ])
  /\ forall vars, Issued PRODUCT_QUERY vars ∉ snd (run (loader' args)).
Proof.
  intros Ha.
  assert (Hrun : run (loader' args)
                 = (Throw (ErrorObj "Expected product handle to be defined"),
                    [ Issued RECOMMENDED_PRODUCTS_QUERY None ])).
  { rewrite loader_run.
    now rewrite (loadCriticalData_absent getSelectedProductOptions args _ Ha). }
  split; [exact Hrun|].
  intros vars. rewrite Hrun. simpl. intros Hin.
  apply elem_of_cons in Hin. destruct Hin as [Hin|Hin]; [discriminate Hin|].
  now apply elem_of_nil in Hin.
Qed.

(** The outcome of the critical phase is a function of the handle, the
    request and the storefront's answers to the product query. *)
Lemma loadCriticalData_fst_ext (args args' : LoaderFunctionArgs)
    (tr tr' : list event) :
  params_handle args = params_handle args' ->
  request args = request args' ->
  (forall vars, respond (storefront args) PRODUCT_QUERY vars
                = respond (storefront args') PRODUCT_QUERY vars) ->
  fst (loadCriticalData' args tr) = fst (loadCriticalData' args' tr').
Proof.
  intros Hh Hq Hr. unfold loadCriticalData. rewrite <- Hh, <- Hq.
  destruct (params_handle args) as [handle|]; [|reflexivity].
  destruct (truthy_string handle); [|reflexivity].
  unfold bind, query, await, emit, ret, throw, bind.
  rewrite !settle_All_singleton, <- Hr.
  destruct (respond (storefront args) PRODUCT_QUERY _) as [v|e]; simpl;
    [|reflexivity].
  destruct v as [|product shop|?|?]; simpl; try reflexivity.
  destruct product as [p|]; simpl; [|reflexivity].
  destruct (truthy_string (p_id p)); reflexivity.
Qed.

(** X15. What the storefront answers to the recommended-products query has
    no influence on the critical part of the load: two requests that agree on
    the handle, the request and the product answers both throw the same
    value, or both return payloads with the same product and store domain. *)
Theorem loader_ignores_recommended (args args' : LoaderFunctionArgs) :
  params_handle args = params_handle args' ->
  request args = request args' ->
  (forall vars, respond (storefront args) PRODUCT_QUERY vars
                = respond (storefront args') PRODUCT_QUERY vars) ->
  match fst (run (loader' args)), fst (run (loader' args')) with
  | Throw e, Throw e' => e = e'
  | Ok payload, Ok payload' =>
      payload !! "product" = payload' !! "product"
      /\ payload !! "storeDomain" = payload' !! "storeDomain"
  | _, _ => False
  end.
Proof.
  intros Hh Hq Hr.
  pose proof (loadCriticalData_fst_ext args args'
                [ Issued RECOMMENDED_PRODUCTS_QUERY None ]
                [ Issued RECOMMENDED_PRODUCTS_QUERY None ] Hh Hq Hr) as Hc.
  rewrite !loader_run.
  destruct (loadCriticalData' args _) as [[c|e] tr];
    destruct (loadCriticalData' args' _) as [[c'|e'] tr'];
    simpl in Hc |- *; try discriminate.
  - injection Hc as ->.
    rewrite !lookup_union, !lookup_singleton_ne by discriminate.
    split; reflexivity.
  - now injection Hc.
Qed.

(** X16. On every payload the loader returns, [meta] does not throw: it
    gives the page title "SanArte | " followed by the product's title and a
    canonical link to /products/ followed by the product's own handle.  With
    no data (the loader threw) the title is "SanArte | " alone and the
    canonical link points to /products/undefined. *)
Theorem meta_of_loader (args : LoaderFunctionArgs) (payload : gmap string field) :
  meta None
  = Ok [ MetaTitle "SanArte | "; MetaLink "canonical" "/products/undefined" ]
  /\ (fst (run (loader' args)) = Ok payload ->
      exists p,
        payload !! "product" = Some (FProduct p)
        /\ meta (Some payload)
           = Ok [ MetaTitle (String.append "SanArte | " (p_title p));
                  MetaLink "canonical" (String.append "/products/" (p_handle p)) ]).
Proof.
  split; [reflexivity|].
  intros Hok.
  destruct (loader_Ok_inv args payload Hok)
    as (handle & p & shop & _ & _ & _ & _ & ->).
  exists p. destruct (pagePayload_lookup args p shop) as (Hp & _ & _).
  split; [exact Hp|]. unfold meta. now rewrite Hp.
Qed.

End LoaderMore.

Lemma loader_success_iff_witness :
  fst (run (loader (fun _ => []) (sample_args (Some "taza") found network_down)))
  = Ok (pagePayload (sample_args (Some "taza") found network_down)
                    (sample_product "gid://shopify/Product/1") sample_shop).
Proof.
  apply (proj1 (loader_success_iff (fun _ => [])
                  (sample_args (Some "taza") found network_down) _)).
  exists "taza", (sample_product "gid://shopify/Product/1"), sample_shop.
  split; [reflexivity|]. split; [discriminate|]. split; [reflexivity|].
  split; [discriminate | reflexivity].
Defined.

Lemma loader_rejection_propagates_witness :
  run (loader (fun _ => []) (sample_args (Some "taza") network_down found))
  = (Throw (ErrorObj "fetch failed"),
     [ Issued RECOMMENDED_PRODUCTS_QUERY None;
       Issued PRODUCT_QUERY (productVariables [] "taza");
       Awaited (All [ productPromise (sample_args (Some "taza") network_down found)
                                     [] "taza" ]) ]).
Proof.
  apply (loader_rejection_propagates (fun _ => [])
           (sample_args (Some "taza") network_down found) "taza").
  - reflexivity.
  - discriminate.
  - reflexivity.
Defined.

Lemma loader_without_handle_witness :
  run (loader (fun _ => []) (sample_args (Some EmptyString) found found))
  = (Throw (ErrorObj "Expected product handle to be defined"),
     [ Issued RECOMMENDED_PRODUCTS_QUERY None ]).
Proof.
  apply (proj1 (loader_without_handle (fun _ => [])
                  (sample_args (Some EmptyString) found found)
                  (or_intror eq_refl))).
Defined.

Lemma loader_ignores_recommended_witness :
  match
    fst (run (loader (fun _ => []) (sample_args (Some "taza") found network_down))),
    fst (run (loader (fun _ => [])
                (sample_args (Some "taza") found (Fulfilled (VRecommended [])))))
  with
  | Throw e, Throw e' => e = e'
  | Ok payload, Ok payload' =>
      payload !! "product" = payload' !! "product"
      /\ payload !! "storeDomain" = payload' !! "storeDomain"
  | _, _ => False
  end.
Proof.
  apply (loader_ignores_recommended (fun _ => [])
           (sample_args (Some "taza") found network_down)
           (sample_args (Some "taza") found (Fulfilled (VRecommended [])))).
  - reflexivity.
  - reflexivity.
  - intros vars. reflexivity.
Defined.

Lemma meta_of_loader_witness :
  exists p,
    pagePayload (sample_args (Some "taza") found network_down)
                (sample_product "gid://shopify/Product/1") sample_shop
    !! "product" = Some (FProduct p)
    /\ meta (Some (pagePayload (sample_args (Some "taza") found network_down)
                               (sample_product "gid://shopify/Product/1")
                               sample_shop))
       = Ok [ MetaTitle (String.append "SanArte | " (p_title p));
              MetaLink "canonical" (String.append "/products/" (p_handle p)) ].
Proof.
  apply (proj2 (meta_of_loader (fun _ => [])
                  (sample_args (Some "taza") found network_down) _)).
  reflexivity.
Defined.

Example meta_sample :
  meta (Some (pagePayload (sample_args (Some "taza") found network_down)
                          (sample_product "gid://shopify/Product/1") sample_shop))
  = Ok [ MetaTitle "SanArte | Taza"; MetaLink "canonical" "/products/taza" ].
Proof. reflexivity. Qed.

(** ** The product-view event *)



